(** * Shallow embedding of the OAuth2 token lifecycle of [app.py]

    The Streamlit script is modelled as code running in a state-and-exception
    monad over a [world]: the session state ([st.session_state]), the clock
    read by [time.time()], the network seen through [requests], the [uuid4]
    generator and the UI output.  Python exceptions are results [Err e]; as in
    Python, the writes performed before a raise are kept. *)

From Stdlib Require Import String Ascii ZArith List Bool Lia.
Import ListNotations.
Open Scope string_scope.
Open Scope Z_scope.
Open Scope list_scope.

(** ** Python values *)

(** Values decoded from the provider's JSON and stored in the session.
    Times are whole seconds (a [Z]); [time.time()] returns a float, which is
    not modelled. *)
Inductive pyval : Type :=
| PNone
| PBool (b : bool)
| PInt (z : Z)
| PStr (s : string).

(** Python truthiness ([if x:] / [not x]). *)
Definition truthy (v : pyval) : bool :=
  match v with
  | PNone => false
  | PBool b => b
  | PInt z => negb (z =? 0)
  | PStr s => negb (String.eqb s "")
  end.

(** Decimal rendering of a natural number, as [str(int)] does. *)
Fixpoint N_to_dec_aux (fuel : nat) (n : N) (acc : string) : string :=
  match fuel with
  | O => acc
  | S f =>
      let acc' := String (ascii_of_N (48 + N.modulo n 10)) acc in
      if N.ltb n 10 then acc' else N_to_dec_aux f (N.div n 10) acc'
  end.

Definition N_to_dec (n : N) : string :=
  N_to_dec_aux (S (N.to_nat (N.size n))) n "".

(** [str(v)], used by the f-string [f"Bearer {token}"]. *)
Definition py_str (v : pyval) : string :=
  match v with
  | PNone => "None"
  | PBool true => "True"
  | PBool false => "False"
  | PInt z =>
      if z <? 0 then String.append "-" (N_to_dec (Z.abs_N z))
      else N_to_dec (Z.to_N z)
  | PStr s => s
  end.

(** ** Python dicts as association lists in insertion order *)

Definition dict (V : Type) := list (string * V).

Fixpoint dict_lookup {V} (k : string) (d : dict V) : option V :=
  match d with
  | [] => None
  | (k', v) :: d' => if String.eqb k k' then Some v else dict_lookup k d'
  end.

(** [d[k] = v]: overwrite in place when present, else append. *)
Fixpoint dict_set {V} (k : string) (v : V) (d : dict V) : dict V :=
  match d with
  | [] => [(k, v)]
  | (k', v') :: d' =>
      if String.eqb k k' then (k', v) :: d' else (k', v') :: dict_set k v d'
  end.

(** A dict display [{k1: v1, ..., **d}]: entries inserted left to right. *)
Definition dict_of_entries {V} (es : list (string * V)) : dict V :=
  fold_left (fun d kv => dict_set (fst kv) (snd kv) d) es [].

(** [d.get(k, default)]. *)
Definition dict_get {V} (d : dict V) (k : string) (default : V) : V :=
  match dict_lookup k d with Some v => v | None => default end.

(** Number of entries with key [k]. *)
Definition key_count {V} (k : string) (d : dict V) : nat :=
  length (filter (fun kv => String.eqb (fst kv) k) d).

(** ** Exceptions, HTTP, world *)

Inductive transport_error : Type := Timeout | ConnectionError.

Inductive exn : Type :=
| RuntimeError (msg : string)
| HTTPError (status : Z)
| KeyError (k : string)
| TypeError
| JSONDecodeError
| TransportErr (t : transport_error).

Inductive body : Type :=
| NoBody
| FormBody (data : dict pyval)            (* [data=...] *)
| QueryBody (params : dict string)        (* [params=...] *)
| JsonBody (payload : dict pyval).        (* [json=...] *)

Record request := mkRequest {
  rq_method : string;
  rq_url : string;
  rq_headers : dict string;
  rq_body : body
}.

(** A response: status code, raw text and the JSON object of the body
    ([None] when the body does not decode to a JSON object). *)
Record response := mkResponse {
  status_code : Z;
  text : string;
  rjson : option (dict pyval)
}.

Inductive net_outcome : Type :=
| NetResp (r : response)
| NetFail (t : transport_error).

Record session := mkSession {
  access_token : pyval;
  refresh_token : pyval;
  token_expiry : Z
}.

(** Lines 30-35: the session state at the first run. *)
Definition initial_session : session := mkSession PNone PNone 0.

Inductive ui_msg : Type :=
| UISubheader (s : string)
| UISuccess (s : string)
| UIMarkdown (s : string)
| UIError (e : exn).

(** The world: [clock n] is the value of the [n]-th call to [time.time()],
    [net i rq] the provider's answer to the [i]-th HTTP request, [uuid_src n]
    the [n]-th [uuid4()]; [log] records every HTTP request sent. *)
Record world := mkWorld {
  sess : session;
  clock : nat -> Z;
  ticks : nat;
  net : nat -> request -> net_outcome;
  log : list request;
  uuid_src : nat -> string;
  nuuid : nat;
  ui : list ui_msg
}.

Definition with_sess (s : session) (w : world) : world :=
  mkWorld s (clock w) (ticks w) (net w) (log w) (uuid_src w) (nuuid w) (ui w).

(** ** The monad *)

Inductive result (A : Type) : Type :=
| Ok (a : A)
| Err (e : exn).
Arguments Ok {A} a.
Arguments Err {A} e.

Definition M (A : Type) : Type := world -> result A * world.

Definition ret {A} (a : A) : M A := fun w => (Ok a, w).

Definition bind {A B} (m : M A) (k : A -> M B) : M B :=
  fun w => match m w with
           | (Ok a, w') => k a w'
           | (Err e, w') => (Err e, w')
           end.

Definition raise {A} (e : exn) : M A := fun w => (Err e, w).

(** [try: m except Exception as e: h e]. *)
Definition try_except (m : M unit) (h : exn -> M unit) : M unit :=
  fun w => match m w with
           | (Ok a, w') => (Ok a, w')
           | (Err e, w') => h e w'
           end.

Notation "x <- m ;; k" := (bind m (fun x => k))
  (at level 100, m at level 99, k at level 200).
Notation "m ;;; k" := (bind m (fun _ => k))
  (at level 100, k at level 200).

Definition get_sess : M session := fun w => (Ok (sess w), w).

Definition put_sess (s : session) : M unit := fun w => (Ok tt, with_sess s w).

Definition set_access_token (v : pyval) : M unit :=
  s <- get_sess ;; put_sess (mkSession v (refresh_token s) (token_expiry s)).

Definition set_refresh_token (v : pyval) : M unit :=
  s <- get_sess ;; put_sess (mkSession (access_token s) v (token_expiry s)).

Definition set_token_expiry (t : Z) : M unit :=
  s <- get_sess ;; put_sess (mkSession (access_token s) (refresh_token s) t).

(** [time.time()]. *)
Definition time_time : M Z :=
  fun w => (Ok (clock w (ticks w)),
            mkWorld (sess w) (clock w) (S (ticks w)) (net w) (log w)
                    (uuid_src w) (nuuid w) (ui w)).

(** [str(uuid.uuid4())]. *)
Definition uuid4 : M string :=
  fun w => (Ok (uuid_src w (nuuid w)),
            mkWorld (sess w) (clock w) (ticks w) (net w) (log w)
                    (uuid_src w) (S (nuuid w)) (ui w)).

(** One HTTP request through [requests]: it is logged, then answered. *)
Definition http (rq : request) : M response :=
  fun w =>
    let w' := mkWorld (sess w) (clock w) (ticks w) (net w) (log w ++ [rq])
                      (uuid_src w) (nuuid w) (ui w) in
    match net w (length (log w)) rq with
    | NetResp r => (Ok r, w')
    | NetFail t => (Err (TransportErr t), w')
    end.

Definition ui_emit (m : ui_msg) : M unit :=
  fun w => (Ok tt, mkWorld (sess w) (clock w) (ticks w) (net w) (log w)
                           (uuid_src w) (nuuid w) (ui w ++ [m])).

(** [r.raise_for_status()]: raises on 4xx and 5xx. *)
Definition raise_for_status (r : response) : M unit :=
  if (400 <=? status_code r) && (status_code r <? 600)
  then raise (HTTPError (status_code r)) else ret tt.

(** [r.json()] where an object is expected. *)
Definition r_json (r : response) : M (dict pyval) :=
  match rjson r with Some d => ret d | None => raise JSONDecodeError end.

(** [d[k]]. *)
Definition getitem (d : dict pyval) (k : string) : M pyval :=
  match dict_lookup k d with Some v => ret v | None => raise (KeyError k) end.

(** [t + v] for the expiry computation: numbers (and bools) add, anything
    else raises [TypeError]. *)
Definition py_add_time (t : Z) (v : pyval) : M Z :=
  match v with
  | PInt z => ret (t + z)
  | PBool b => ret (t + if b then 1 else 0)
  | _ => raise TypeError
  end.

(** ** The program (lines 14-146 of [app.py]) *)

Definition HMRC_BASE : string := "https://test-api.service.hmrc.gov.uk".
Definition APP_URL : string := "https://vat-sandbox.streamlit.app".
Definition REDIRECT_URI : string := String.append APP_URL "/callback".
Definition TOKEN_URL : string := String.append HMRC_BASE "/oauth/token".

Section App.

(** [st.secrets.get("HMRC_CLIENT_ID", "")] and the secret. *)
Variables CLIENT_ID CLIENT_SECRET : string.

(** The request sent by [exchange_code_for_token(code)]. *)
Definition code_request (code : string) : request :=
  mkRequest "POST" TOKEN_URL []
    (FormBody [("grant_type", PStr "authorization_code");
               ("client_id", PStr CLIENT_ID);
               ("client_secret", PStr CLIENT_SECRET);
               ("redirect_uri", PStr REDIRECT_URI);
               ("code", PStr code)]).

Definition exchange_code_for_token (code : string) : M (dict pyval) :=
  r <- http (code_request code) ;;
  raise_for_status r ;;;
  r_json r.

(** The request sent by [refresh_access_token(refresh_token)]. *)
Definition refresh_request (rt : pyval) : request :=
  mkRequest "POST" TOKEN_URL []
    (FormBody [("grant_type", PStr "refresh_token");
               ("client_id", PStr CLIENT_ID);
               ("client_secret", PStr CLIENT_SECRET);
               ("refresh_token", rt)]).

Definition refresh_access_token (rt : pyval) : M (dict pyval) :=
  r <- http (refresh_request rt) ;;
  raise_for_status r ;;;
  r_json r.

(** [ensure_token()], lines 73-83.  The [and] of line 75 short-circuits:
    [time.time()] is read only when the access token is truthy. *)
Definition ensure_token : M pyval :=
  s <- get_sess ;;
  fresh <- (if truthy (access_token s)
            then (now <- time_time ;; ret (now <? token_expiry s - 60))
            else ret false) ;;
  (if fresh then
    (s' <- get_sess ;; ret (access_token s'))
  else
    (s1 <- get_sess ;;
    if truthy (refresh_token s1) then
      tokens <- refresh_access_token (refresh_token s1) ;;
      acc <- getitem tokens "access_token" ;;
      set_access_token acc ;;;
      s2 <- get_sess ;;
      set_refresh_token (dict_get tokens "refresh_token" (refresh_token s2)) ;;;
      now <- time_time ;;
      exp <- py_add_time now (dict_get tokens "expires_in" (PInt 3600)) ;;
      set_token_expiry exp ;;;
      s3 <- get_sess ;;
      ret (access_token s3)
    else ret PNone)).

(** The fixed header set of [fraud_prevention_headers()] around a device id. *)
Definition fraud_headers_with (device_id : string) : dict string :=
  [("Gov-Client-Public-IP", "203.0.113.42");
   ("Gov-Client-Public-Port", "443");
   ("Gov-Client-User-Agent", "vat-sandbox/0.1.0 (Streamlit)");
   ("Gov-Client-Device-Id", device_id);
   ("Gov-Vendor-Product-Name", "vat-sandbox");
   ("Gov-Vendor-Version", "vat-sandbox=0.1.0");
   ("Gov-Vendor-License-IDs", "default");
   ("Gov-Client-Timezone", "UTC")].

(** [fraud_prevention_headers()], lines 89-102. *)
Definition fraud_prevention_headers : M (dict string) :=
  u <- uuid4 ;; ret (fraud_headers_with u).

(** [params or {}]. *)
Definition params_or_empty (params : option (dict string)) : dict string :=
  match params with Some p => p | None => [] end.

(** [api_get(path, params)], lines 107-117. *)
Definition api_get (path : string) (params : option (dict string)) : M response :=
  token <- ensure_token ;;
  if negb (truthy token) then raise (RuntimeError "No access token")
  else
    fph <- fraud_prevention_headers ;;
    let headers := dict_of_entries
                     ([("Authorization", String.append "Bearer " (py_str token));
                       ("Accept", "application/json")] ++ fph) in
    r <- http (mkRequest "GET" (String.append HMRC_BASE path) headers
                         (QueryBody (params_or_empty params))) ;;
    ret r.

(** [api_post(path, payload)], lines 119-130. *)
Definition api_post (path : string) (payload : dict pyval) : M response :=
  token <- ensure_token ;;
  if negb (truthy token) then raise (RuntimeError "No access token")
  else
    fph <- fraud_prevention_headers ;;
    let headers := dict_of_entries
                     ([("Authorization", String.append "Bearer " (py_str token));
                       ("Content-Type", "application/json");
                       ("Accept", "application/json")] ++ fph) in
    r <- http (mkRequest "POST" (String.append HMRC_BASE path) headers
                         (JsonBody payload)) ;;
    ret r.

(** The callback routing of lines 135-146, for the query parameters [qp]. *)
Definition handle_callback (qp : dict string) : M unit :=
  match dict_lookup "code" qp with
  | None => ret tt
  | Some code =>
      ui_emit (UISubheader "Completing OAuth Sign-in") ;;;
      try_except
        (tokens <- exchange_code_for_token code ;;
         acc <- getitem tokens "access_token" ;;
         set_access_token acc ;;;
         set_refresh_token (dict_get tokens "refresh_token" PNone) ;;;
         now <- time_time ;;
         exp <- py_add_time now (dict_get tokens "expires_in" (PInt 3600)) ;;
         set_token_expiry exp ;;;
         ui_emit (UISuccess "Signed in with HMRC Sandbox") ;;;
         ui_emit (UIMarkdown "You can now access VAT API endpoints below."))
        (fun e => ui_emit (UIError e))
  end.

(** Whether the fast path of line 75 is taken in world [w]. *)
Definition fast_path (w : world) : bool :=
  truthy (access_token (sess w)) &&
  (clock w (ticks w) <? token_expiry (sess w) - 60).

(** A token-endpoint answer that passes [raise_for_status] and decodes. *)
Definition ok_json (o : net_outcome) (tokens : dict pyval) : Prop :=
  exists r, o = NetResp r /\ status_code r < 400 /\ rjson r = Some tokens.

(** A token-endpoint answer on which the callback raises before its first
    write: transport failure, error status, undecodable body, or no
    [access_token]. *)
Definition exchange_fails_before_install (o : net_outcome) : Prop :=
  match o with
  | NetFail _ => True
  | NetResp r =>
      (400 <= status_code r < 600) \/ rjson r = None \/
      exists tokens, rjson r = Some tokens /\ dict_lookup "access_token" tokens = None
  end.

(** The header requirements of an authenticated request with token [t] and
    the fraud-prevention headers [fh]. *)
Definition auth_headers_ok (h : dict string) (t : pyval) (fh : dict string) : Prop :=
  key_count "Authorization" h = 1%nat /\
  dict_lookup "Authorization" h = Some (String.append "Bearer " (py_str t)) /\
  dict_lookup "Accept" h = Some "application/json" /\
  (forall k v, In (k, v) fh -> dict_lookup k h = Some v).

(** Concrete worlds: a clock ticking from 1000, a provider that gives the
    same answer to every request, and [uuid4] values "0", "1", ... *)
Definition sample_clock (n : nat) : Z := 1000 + Z.of_nat n.
Definition sample_uuid (n : nat) : string := N_to_dec (N.of_nat n).
Definition token_answer (d : dict pyval) : net_outcome :=
  NetResp (mkResponse 200 "" (Some d)).
Definition sample_world (s : session) (o : net_outcome) : world :=
  mkWorld s sample_clock 0 (fun _ _ => o) [] sample_uuid 0 [].

(** ** The rest of the script: authorization URL, login card, VAT actions *)

Definition SCOPES : string := "read:vat write:vat".

(** Characters [quote_plus] leaves as they are: letters, digits, [_.-~]. *)
Definition url_unreserved (c : ascii) : bool :=
  let n := nat_of_ascii c in
  ((48 <=? n) && (n <=? 57))%nat || ((65 <=? n) && (n <=? 90))%nat ||
  ((97 <=? n) && (n <=? 122))%nat ||
  Ascii.eqb c "_"%char || Ascii.eqb c "."%char || Ascii.eqb c "-"%char ||
  Ascii.eqb c "~"%char.

Definition hex_digit (n : nat) : ascii :=
  match String.get n "0123456789ABCDEF" with Some c => c | None => "0"%char end.

(** [urllib.parse.quote_plus(s, safe='')], on the UTF-8 bytes of [s] (one
    [ascii] per byte): unreserved bytes are kept, a space becomes [+], any
    other byte becomes [%XX] with upper-case hex digits. *)
Fixpoint quote_plus (s : string) : string :=
  match s with
  | EmptyString => ""
  | String c s' =>
      if url_unreserved c then String c (quote_plus s')
      else if Ascii.eqb c " "%char then String "+" (quote_plus s')
      else let n := nat_of_ascii c in
           String "%" (String (hex_digit (Nat.div n 16))
                         (String (hex_digit (Nat.modulo n 16)) (quote_plus s')))
  end.

(** [urllib.parse.urlencode(params)] for a dict of strings. *)
Definition urlencode (params : dict string) : string :=
  String.concat "&"
    (map (fun kv => String.append (quote_plus (fst kv))
                      (String.append "=" (quote_plus (snd kv)))) params).

(** [authorization_url()], lines 40-48. *)
Definition authorization_url : M string :=
  u <- uuid4 ;;
  ret (String.append HMRC_BASE
         (String.append "/oauth/authorize?"
            (urlencode [("response_type", "code");
                        ("client_id", CLIENT_ID);
                        ("redirect_uri", REDIRECT_URI);
                        ("scope", SCOPES);
                        ("state", u)]))).

(** [str.isspace] on an ASCII character: [\t\n\v\f\r], [\x1c]-[\x1f] and
    space.  Text inputs are taken to be ASCII. *)
Definition py_isspace (c : ascii) : bool :=
  let n := nat_of_ascii c in
  ((9 <=? n) && (n <=? 13))%nat || ((28 <=? n) && (n <=? 32))%nat.

Fixpoint lstrip_list (l : list ascii) : list ascii :=
  match l with
  | [] => []
  | c :: l' => if py_isspace c then lstrip_list l' else l
  end.

(** [s.strip()]. *)
Definition py_strip (s : string) : string :=
  string_of_list_ascii
    (rev (lstrip_list (rev (lstrip_list (list_ascii_of_string s))))).

(** The page output of the script after the callback routing. *)
Inductive page_msg : Type :=
| PgInfo (s : string)
| PgLinkButton (label url : string)
| PgError (s : string)
| PgSuccess (s : string)
| PgHeader (s : string)
| PgSubheader (s : string)
| PgCaption (s : string)
| PgJson (d : dict pyval)
| PgCode (s : string)
| PgOutgoing (payload : dict pyval)      (* [st.code(json.dumps(payload))] *)
| PgDebug (access_present refresh_present : bool) (expires_at : Z).

Record page := mkPage { pw : world; out : list page_msg }.

(** How a script run ends: normally, by an uncaught exception, or by
    [st.stop()] (a [BaseException], not caught by [except Exception]). *)
Inductive outcome (A : Type) : Type :=
| Done (a : A)
| Raised (e : exn)
| Stopped.
Arguments Done {A} a.
Arguments Raised {A} e.
Arguments Stopped {A}.

Definition P (A : Type) : Type := page -> outcome A * page.

Definition pret {A} (a : A) : P A := fun p => (Done a, p).

Definition pbind {A B} (m : P A) (k : A -> P B) : P B :=
  fun p => match m p with
           | (Done a, p') => k a p'
           | (Raised e, p') => (Raised e, p')
           | (Stopped, p') => (Stopped, p')
           end.

Definition lift {A} (m : M A) : P A :=
  fun p => match m (pw p) with
           | (Ok a, w') => (Done a, mkPage w' (out p))
           | (Err e, w') => (Raised e, mkPage w' (out p))
           end.

Definition emit (m : page_msg) : P unit :=
  fun p => (Done tt, mkPage (pw p) (out p ++ [m])).

Definition st_stop : P unit := fun p => (Stopped, p).

(** [try: m except Exception: h e]. *)
Definition ptry (m : P unit) (h : exn -> P unit) : P unit :=
  fun p => match m p with
           | (Raised e, p') => h e p'
           | r => r
           end.

Notation "x <-- m ;; k" := (pbind m (fun x => k))
  (at level 100, m at level 99, k at level 200).
Notation "m ;;> k" := (pbind m (fun _ => k))
  (at level 100, k at level 200).

(** The widget values of one script run. *)
Record page_input := mkInput {
  in_qp : dict string;
  in_vrn : string;
  in_date_from : string;
  in_date_to : string;
  in_fetch_obligations : bool;
  in_period_key : string;
  in_boxes : string -> pyval;
  in_finalised : bool;
  in_submit : bool;
  in_fetch_liabilities : bool
}.

(** The keys of [vat_fields], lines 189-199, in order. *)
Definition vat_field_keys : list string :=
  ["vatDueSales"; "vatDueAcquisitions"; "totalVatDue";
   "vatReclaimedCurrPeriod"; "netVatDue"; "totalValueSalesExVAT";
   "totalValuePurchasesExVAT"; "totalValueGoodsSuppliedExVAT";
   "totalAcquisitionsExVAT"].

(** [inputs], filled by the loop of lines 200-205. *)
Definition vat_inputs (boxes : string -> pyval) : dict pyval :=
  fold_left (fun d k => dict_set k (boxes k) d) vat_field_keys [].

(** [payload], lines 210-214. *)
Definition vat_payload (inp : page_input) : dict pyval :=
  dict_of_entries
    ([("periodKey", PStr (py_strip (in_period_key inp)))] ++
     vat_inputs (in_boxes inp) ++
     [("finalised", PBool (in_finalised inp))]).

Definition vat_path (vrn suffix : string) : string :=
  String.append "/organisations/vat/" (String.append vrn suffix).

(** [f"Error {r.status_code}: {r.text}"]. *)
Definition status_error_text (r : response) : string :=
  String.append "Error "
    (String.append (py_str (PInt (status_code r))) (String.append ": " (text r))).

(** Lines 151-157: the login card. *)
Definition login_card : P unit :=
  s <-- lift get_sess ;;
  if negb (truthy (access_token s)) then
    emit (PgInfo "Connect to HMRC Sandbox with OAuth 2.0 (Authorization Code Flow).") ;;>
    (if negb (String.eqb CLIENT_ID "") && negb (String.eqb CLIENT_SECRET "") then
       url <-- lift authorization_url ;;
       emit (PgLinkButton "Sign in with HMRC Sandbox" url)
     else emit (PgError "Missing CLIENT_ID / CLIENT_SECRET in Streamlit secrets.")) ;;>
    st_stop
  else pret tt.

(** Lines 174-181: "Fetch Obligations". *)
Definition fetch_obligations (inp : page_input) : P unit :=
  r <-- lift (api_get (vat_path (in_vrn inp) "/obligations")
                      (Some [("from", in_date_from inp); ("to", in_date_to inp)])) ;;
  ptry (lift (raise_for_status r) ;;>
        d <-- lift (r_json r) ;;
        emit (PgJson d) ;;>
        emit (PgCaption "Use an open obligation’s periodKey for the submission below."))
       (fun _ => emit (PgError (status_error_text r))).

(** Lines 209-224: "Submit VAT Return". *)
Definition submit_return (inp : page_input) : P unit :=
  let payload := vat_payload inp in
  emit (PgSubheader "Outgoing JSON") ;;>
  emit (PgOutgoing payload) ;;>
  r <-- lift (api_post (vat_path (in_vrn inp) "/returns") payload) ;;
  if (status_code r =? 200) || (status_code r =? 201) then
    emit (PgSuccess "Return accepted") ;;>
    d <-- lift (r_json r) ;;
    emit (PgJson d)
  else
    emit (PgError (String.append "Error " (py_str (PInt (status_code r))))) ;;>
    emit (PgCode (text r)).

(** Lines 230-236: "Fetch Liabilities". *)
Definition fetch_liabilities (inp : page_input) : P unit :=
  r <-- lift (api_get (vat_path (in_vrn inp) "/liabilities") None) ;;
  ptry (lift (raise_for_status r) ;;>
        d <-- lift (r_json r) ;;
        emit (PgJson d))
       (fun _ => emit (PgError (status_error_text r))).

(** One run of the script from line 135 on. *)
Definition run_page (inp : page_input) : P unit :=
  lift (handle_callback (in_qp inp)) ;;>
  login_card ;;>
  emit (PgSuccess "Connected to HMRC Sandbox") ;;>
  s <-- lift get_sess ;;
  emit (PgDebug (truthy (access_token s)) (truthy (refresh_token s)) (token_expiry s)) ;;>
  emit (PgHeader "VAT Obligations (Sandbox)") ;;>
  (if in_fetch_obligations inp then fetch_obligations inp else pret tt) ;;>
  emit (PgHeader "Submit VAT Return (Sandbox)") ;;>
  (if in_submit inp then submit_return inp else pret tt) ;;>
  emit (PgHeader "VAT Liabilities (Sandbox)") ;;>
  (if in_fetch_liabilities inp then fetch_liabilities inp else pret tt).


(** ** Proofs *)

Ltac unfold_M :=
  unfold bind, ret, raise, get_sess, put_sess, with_sess, set_access_token,
    set_refresh_token, set_token_expiry, time_time, uuid4, http, ui_emit,
    raise_for_status, r_json, getitem, try_except in *.

(** C1: when the access token is set (truthy) and the current time is
    strictly below [token_expiry - 60], [ensure_token] returns the stored
    access token, sends no request and leaves the session unchanged. *)
Theorem ensure_token_fast_path (w : world) :
  truthy (access_token (sess w)) = true ->
  clock w (ticks w) < token_expiry (sess w) - 60 ->
  let (res, w') := ensure_token w in
  res = Ok (access_token (sess w)) /\ sess w' = sess w /\ log w' = log w.
Proof.
  intros Ha Ht.
  unfold ensure_token; unfold_M; cbn.
  rewrite Ha; cbn.
  apply Z.ltb_lt in Ht; rewrite Ht; cbn.
  auto.
Qed.

(** C4: with neither an access token nor a refresh token, [ensure_token]
    returns [None] without raising; the world is untouched, so no request is
    sent. *)
Theorem ensure_token_no_token (w : world) :
  access_token (sess w) = PNone ->
  refresh_token (sess w) = PNone ->
  ensure_token w = (Ok PNone, w).
Proof.
  destruct w as [[a r e] c t n l u nu ui0]; cbn; intros -> ->.
  reflexivity.
Qed.



(** C3: on a refresh whose response decodes and carries [access_token], the
    stored refresh token afterwards is the old one when the response omits
    [refresh_token], and the response's value when it has one.  Line 80 runs
    before the expiry of line 81 is computed, so this holds whether or not
    [ensure_token] then raises on [expires_in]. *)
Theorem ensure_token_refresh_token_kept (w : world) (tokens : dict pyval) (a : pyval) :
  fast_path w = false ->
  truthy (refresh_token (sess w)) = true ->
  ok_json (net w (length (log w)) (refresh_request (refresh_token (sess w)))) tokens ->
  dict_lookup "access_token" tokens = Some a ->
  let w' := snd (ensure_token w) in
  (dict_lookup "refresh_token" tokens = None ->
   refresh_token (sess w') = refresh_token (sess w)) /\
  (forall v, dict_lookup "refresh_token" tokens = Some v ->
   refresh_token (sess w') = v).
Proof.
  destruct w as [[a0 r0 e0] c t n l u nu ui0]; unfold fast_path; cbn.
  intros Hfast Hr [resp [Hnet [Hst Hj]]] Ha.
  assert (Hs : (400 <=? status_code resp) = false) by (apply Z.leb_gt; lia).
  unfold ensure_token, refresh_access_token; unfold_M; cbn.
  destruct (truthy a0) eqn:Ea; cbn in Hfast |- *; [rewrite Hfast|]; cbn;
    rewrite Hr; cbn; rewrite Hnet; cbn; rewrite Hs; cbn; rewrite Hj; cbn;
    rewrite Ha; cbn; unfold dict_get;
    destruct (dict_lookup "expires_in" tokens) as [[]|]; cbn;
    destruct (dict_lookup "refresh_token" tokens); split; intros; congruence.
Qed.

(** C9: after a successful code exchange in the callback handler, the stored
    refresh token is exactly the response's [refresh_token], and [None] when
    the response omits it: the previous refresh token is not kept. *)
Theorem callback_installs_refresh_token (w : world) (qp : dict string) (code : string)
    (tokens : dict pyval) (a : pyval) :
  dict_lookup "code" qp = Some code ->
  ok_json (net w (length (log w)) (code_request code)) tokens ->
  dict_lookup "access_token" tokens = Some a ->
  (forall v, dict_lookup "expires_in" tokens = Some v -> exists n, v = PInt n) ->
  let w' := snd (handle_callback qp w) in
  In (UISuccess "Signed in with HMRC Sandbox") (ui w') /\
  access_token (sess w') = a /\
  (dict_lookup "refresh_token" tokens = None -> refresh_token (sess w') = PNone) /\
  (forall v, dict_lookup "refresh_token" tokens = Some v -> refresh_token (sess w') = v).
Proof.
  destruct w as [[a0 r0 e0] c t n l u nu ui0]; cbn.
  intros Hq [resp [Hnet [Hst Hj]]] Ha Hexp.
  assert (Hs : (400 <=? status_code resp) = false) by (apply Z.leb_gt; lia).
  unfold handle_callback, exchange_code_for_token; rewrite Hq; unfold_M; cbn.
  rewrite Hnet; cbn; rewrite Hs; cbn; rewrite Hj; cbn; rewrite Ha; cbn.
  unfold dict_get.
  destruct (dict_lookup "expires_in" tokens) as [v|] eqn:Ee;
    try (destruct (Hexp v eq_refl) as [k ->]); cbn;
    (split; [apply in_or_app; left; apply in_or_app; right; left; reflexivity|]);
    destruct (dict_lookup "refresh_token" tokens); repeat split; intros; congruence.
Qed.


(** C10: an empty access token counts as absent.  Whatever [token_expiry]
    is, [ensure_token] does not return it from the fast path: without a
    refresh token it returns [None] and touches nothing, with one it sends
    the refresh request.  And when [ensure_token] returns [""], [api_get]
    and [api_post] raise the "No access token" error without any request. *)
Theorem empty_access_token_absent :
  (forall w : world, access_token (sess w) = PStr "" ->
     (truthy (refresh_token (sess w)) = false -> ensure_token w = (Ok PNone, w)) /\
     (truthy (refresh_token (sess w)) = true ->
        log (snd (ensure_token w)) = log w ++ [refresh_request (refresh_token (sess w))])) /\
  (forall (w w1 : world) path params payload,
     ensure_token w = (Ok (PStr ""), w1) ->
     api_get path params w = (Err (RuntimeError "No access token"), w1) /\
     api_post path payload w = (Err (RuntimeError "No access token"), w1)).
Proof.
  split.
  - intros [[a0 r0 e0] c t n l u nu ui0]; cbn; intros ->.
    unfold ensure_token, refresh_access_token; unfold_M; cbn.
    split; intros Hr; rewrite Hr; cbn; [reflexivity|].
    destruct (n (length l) (refresh_request r0)) as [resp|x]; cbn; [|reflexivity].
    destruct ((400 <=? status_code resp) && (status_code resp <? 600)); cbn;
      [reflexivity|].
    destruct (rjson resp) as [tokens|]; cbn; [|reflexivity].
    destruct (dict_lookup "access_token" tokens); cbn; [|reflexivity].
    unfold dict_get; destruct (dict_lookup "expires_in" tokens) as [[]|]; reflexivity.
  - intros w w1 path params payload He.
    unfold api_get, api_post, bind; rewrite He; split; reflexivity.
Qed.



(** C6: when [ensure_token] yields a usable token [t], the one request sent
    by [api_get] (resp. [api_post]) carries exactly one [Authorization] entry,
    equal to ["Bearer " ++ str(t)], [Accept: application/json], every header
    produced by the fraud-prevention builder in that call, and, for
    [api_post], [Content-Type: application/json]. *)
Theorem api_request_headers (w w1 : world) (t : pyval) (fh : dict string)
    (path : string) (params : option (dict string)) (payload : dict pyval) :
  ensure_token w = (Ok t, w1) ->
  truthy t = true ->
  fst (fraud_prevention_headers w1) = Ok fh ->
  (exists rq, log (snd (api_get path params w)) = log w1 ++ [rq] /\
     rq_method rq = "GET" /\ auth_headers_ok (rq_headers rq) t fh) /\
  (exists rq, log (snd (api_post path payload w)) = log w1 ++ [rq] /\
     rq_method rq = "POST" /\ auth_headers_ok (rq_headers rq) t fh /\
     dict_lookup "Content-Type" (rq_headers rq) = Some "application/json").
Proof.
  intros He Ht Hf.
  unfold fraud_prevention_headers in Hf; unfold_M; cbn in Hf.
  injection Hf as <-.
  unfold api_get, api_post, fraud_prevention_headers; unfold_M.
  rewrite He, Ht; cbn.
  split; eexists; (split; [destruct (net w1 _ _); reflexivity|]);
    (split; [reflexivity|]); unfold auth_headers_ok;
    repeat split; try reflexivity;
    intros k v Hin; cbn in Hin;
    repeat (destruct Hin as [Hin | Hin]; [injection Hin as <- <-; reflexivity|]);
    contradiction.
Qed.

(** C8 (amended): [fraud_prevention_headers] never raises and only draws one
    [uuid4]: the session and the network are untouched.  Every call returns
    the same eight header names, with the same values for all of them except
    [Gov-Client-Device-Id], which is the fresh [uuid4] of that call. *)
Theorem fraud_headers_shape (w1 w2 : world) :
  match fst (fraud_prevention_headers w1), fst (fraud_prevention_headers w2) with
  | Ok h1, Ok h2 =>
      length h1 = 8%nat /\ map fst h1 = map fst h2 /\
      (forall k, k <> "Gov-Client-Device-Id" -> dict_lookup k h1 = dict_lookup k h2) /\
      dict_lookup "Gov-Client-Device-Id" h1 = Some (uuid_src w1 (nuuid w1))
  | _, _ => False
  end /\
  sess (snd (fraud_prevention_headers w1)) = sess w1 /\
  log (snd (fraud_prevention_headers w1)) = log w1.
Proof.
  unfold fraud_prevention_headers; unfold_M; cbn.
  repeat split; try reflexivity.
  intros k Hk.
  repeat (match goal with
          | |- context [String.eqb k ?s] =>
              let E := fresh "E" in
              destruct (String.eqb k s) eqn:E;
              [apply String.eqb_eq in E; subst; first [reflexivity | exfalso; apply Hk; reflexivity]|]
          end).
  reflexivity.
Qed.

(** ** Further properties of the script *)

Ltac split_matches :=
  repeat (match goal with
          | |- context [match ?x with _ => _ end] =>
              lazymatch x with
              | context [match _ with _ => _ end] => fail
              | _ => destruct x; cbn
              end
          end).

(** The callback routing never raises: a failed exchange is reported on the
    page and the script goes on. *)
Theorem handle_callback_never_raises (qp : dict string) (w : world) :
  fst (handle_callback qp w) = Ok tt.
Proof.
  unfold handle_callback.
  destruct (dict_lookup "code" qp) as [code|]; [|reflexivity].
  unfold bind at 1, try_except; unfold ui_emit at 1; cbn.
  match goal with |- context [match ?m ?w0 with _ => _ end] =>
    destruct (m w0) as [[[]|e] w'] end; reflexivity.
Qed.

(** [ensure_token] sends at most one request, and that request is the
    refresh of the stored refresh token: there is no retry. *)
Theorem ensure_token_at_most_one_request (w : world) :
  log (snd (ensure_token w)) = log w \/
  log (snd (ensure_token w)) = log w ++ [refresh_request (refresh_token (sess w))].
Proof.
  destruct w as [[a0 r0 e0] c t n l u nu ui0].
  unfold ensure_token, refresh_access_token, py_add_time; unfold_M; cbn.
  split_matches; first [left; reflexivity | right; reflexivity].
Qed.

(** A token returned by [ensure_token] is the access token stored in the
    session afterwards, except for the [None] of the no-token path, which
    leaves the session and the request log as they were. *)
Theorem ensure_token_returns_stored (w : world) :
  match ensure_token w with
  | (Ok t, w') =>
      t = access_token (sess w') \/ (t = PNone /\ sess w' = sess w /\ log w' = log w)
  | (Err _, _) => True
  end.
Proof.
  destruct w as [[a0 r0 e0] c t n l u nu ui0].
  unfold ensure_token, refresh_access_token, py_add_time; unfold_M; cbn.
  split_matches; auto.
Qed.

(** A failed refresh (transport error, 4xx/5xx status, undecodable body or
    no [access_token]) makes [ensure_token] raise after sending the one
    refresh request, and the session is left as it was. *)
Theorem ensure_token_failed_refresh (w : world) :
  fast_path w = false ->
  truthy (refresh_token (sess w)) = true ->
  exchange_fails_before_install
    (net w (length (log w)) (refresh_request (refresh_token (sess w)))) ->
  exists e w', ensure_token w = (Err e, w') /\ sess w' = sess w /\
    log w' = log w ++ [refresh_request (refresh_token (sess w))].
Proof.
  destruct w as [[a0 r0 e0] c t n l u nu ui0]; unfold fast_path; cbn.
  intros Hfast Hr Hfail.
  unfold ensure_token, refresh_access_token; unfold_M; cbn.
  destruct (truthy a0) eqn:Ea; cbn in Hfast |- *; [rewrite Hfast|]; cbn;
    rewrite Hr; cbn;
    (destruct (n (length l) (refresh_request r0)) as [resp|x]; cbn;
     [|eexists; eexists; repeat split]);
    (destruct Hfail as [[H1 H2] | [Hj | [tokens [Hj Ha]]]];
     [apply Z.leb_le in H1; apply Z.ltb_lt in H2; rewrite H1, H2; cbn
     | destruct ((400 <=? status_code resp) && (status_code resp <? 600)); cbn;
       [|rewrite Hj; cbn]
     | destruct ((400 <=? status_code resp) && (status_code resp <? 600)); cbn;
       [|rewrite Hj; cbn; rewrite Ha; cbn]]);
    eexists; eexists; repeat split.
Qed.

Lemma hex_digit_unreserved (n : nat) : url_unreserved (hex_digit n) = true.
Proof.
  unfold hex_digit; do 16 (destruct n as [|n]; [reflexivity|]); reflexivity.
Qed.

Lemma quote_plus_chars (s : string) (c : ascii) :
  In c (list_ascii_of_string (quote_plus s)) ->
  url_unreserved c = true \/ c = "+"%char \/ c = "%"%char.
Proof.
  induction s as [|c0 s IH]; cbn; [contradiction|].
  destruct (url_unreserved c0) eqn:Eu; [cbn; intros [<- | H]; auto|].
  destruct (Ascii.eqb c0 " "%char); cbn; [intros [H0 | H]; subst; auto|].
  intros [H0 | [H0 | [H0 | H]]]; subst; auto; left; apply hex_digit_unreserved.
Qed.

(** [quote_plus] never emits [&], [=], [#], [?] or a space, so an encoded
    value cannot add or split query parameters; and a string made of
    unreserved characters only (such as a [uuid4]) is left unchanged. *)
Theorem quote_plus_safe (s : string) :
  (forall c, In c (list_ascii_of_string (quote_plus s)) ->
     c <> "&"%char /\ c <> "="%char /\ c <> "#"%char /\ c <> "?"%char /\
     c <> " "%char) /\
  ((forall c, In c (list_ascii_of_string s) -> url_unreserved c = true) ->
   quote_plus s = s).
Proof.
  split.
  - intros c Hin; apply quote_plus_chars in Hin.
    destruct Hin as [H | [-> | ->]];
      repeat split; intros Heq; subst; cbn in *; discriminate.
  - induction s as [|c s IH]; cbn; intros H; [reflexivity|].
    rewrite (H c (or_introl eq_refl)); f_equal; apply IH; auto.
Qed.

(** [authorization_url()] builds the authorize URL with the five parameters
    in order, the client id and the fresh [uuid4] state percent-encoded, and
    stores nothing: the session, the request log and the clock are untouched,
    only one [uuid4] is drawn.  The [state] is therefore never kept for a
    later check. *)
Theorem authorization_url_spec (w : world) :
  let (r, w') := authorization_url w in
  r = Ok (String.append HMRC_BASE
            (String.append "/oauth/authorize?response_type=code&client_id="
               (String.append (quote_plus CLIENT_ID)
                  (String.append
                     "&redirect_uri=https%3A%2F%2Fvat-sandbox.streamlit.app%2Fcallback&scope=read%3Avat+write%3Avat&state="
                     (quote_plus (uuid_src w (nuuid w))))))) /\
  sess w' = sess w /\ log w' = log w /\ ticks w' = ticks w /\
  nuuid w' = S (nuuid w).
Proof.
  unfold authorization_url; unfold_M.
  split; [|repeat split]; reflexivity.
Qed.

#[local] Arguments truthy v : simpl never.

Lemma run_page_callback_step (inp : page_input) (p : page) (k : P unit) :
  pbind (lift (handle_callback (in_qp inp))) (fun _ => k) p =
  k (mkPage (snd (handle_callback (in_qp inp) (pw p))) (out p)).
Proof.
  pose proof (handle_callback_never_raises (in_qp inp) (pw p)) as H.
  unfold pbind, lift.
  destruct (handle_callback (in_qp inp) (pw p)) as [r w1]; cbn in H; subst r.
  destruct k; reflexivity.
Qed.

(** The login card: when, after the callback routing, no (truthy) access
    token is stored, the run shows the connect notice, then the sign-in link
    if both credentials are non-empty and an error otherwise, and stops
    there: no VAT request is sent and the session is not changed. *)
Theorem run_page_login_gate (inp : page_input) (p : page) :
  truthy (access_token (sess (snd (handle_callback (in_qp inp) (pw p))))) = false ->
  let w1 := snd (handle_callback (in_qp inp) (pw p)) in
  fst (run_page inp p) = Stopped /\
  sess (pw (snd (run_page inp p))) = sess w1 /\
  log (pw (snd (run_page inp p))) = log w1 /\
  out (snd (run_page inp p)) =
    out p ++
    PgInfo "Connect to HMRC Sandbox with OAuth 2.0 (Authorization Code Flow)." ::
    (if negb (String.eqb CLIENT_ID "") && negb (String.eqb CLIENT_SECRET "")
     then match fst (authorization_url w1) with
          | Ok url => [PgLinkButton "Sign in with HMRC Sandbox" url]
          | Err _ => []
          end
     else [PgError "Missing CLIENT_ID / CLIENT_SECRET in Streamlit secrets."]).
Proof.
  intros Ha w1; subst w1.
  unfold run_page; rewrite run_page_callback_step.
  revert Ha; generalize (snd (handle_callback (in_qp inp) (pw p))) as w1; intros w1 Ha.
  unfold login_card, pbind, lift, emit, st_stop, pret, get_sess; simpl.
  rewrite Ha; simpl.
  destruct (negb (String.eqb CLIENT_ID "") && negb (String.eqb CLIENT_SECRET ""));
    simpl; rewrite <- !app_assoc; repeat split; reflexivity.
Qed.







Lemma api_get_falsy_token (w w1 : world) (t : pyval) path params :
  ensure_token w = (Ok t, w1) -> truthy t = false ->
  api_get path params w = (Err (RuntimeError "No access token"), w1).
Proof.
  intros He Ht; unfold api_get, bind at 1; rewrite He, Ht; reflexivity.
Qed.

Lemma ensure_token_stale_no_refresh (w : world) :
  truthy (access_token (sess w)) = true ->
  token_expiry (sess w) - 60 <= clock w (ticks w) ->
  truthy (refresh_token (sess w)) = false ->
  exists w1, ensure_token w = (Ok PNone, w1) /\ log w1 = log w.
Proof.
  destruct w as [[a0 r0 e0] c t n l u nu ui0]; cbn; intros Ha Ht Hr.
  unfold ensure_token; unfold_M; cbn.
  assert (Hlt : (c t <? e0 - 60) = false) by (apply Z.ltb_ge; lia).
  rewrite Ha; cbn; rewrite Hlt; cbn; rewrite Hr.
  eexists; split; reflexivity.
Qed.

(** A stored access token that is about to expire, with no refresh token
    (a code exchange whose response had none), passes the login card, but
    "Fetch Obligations" then raises "No access token" outside any [try]: the
    run ends with the exception and no request is sent. *)
Theorem run_page_stale_token_crash (inp : page_input) (p : page) :
  dict_lookup "code" (in_qp inp) = None ->
  truthy (access_token (sess (pw p))) = true ->
  token_expiry (sess (pw p)) - 60 <= clock (pw p) (ticks (pw p)) ->
  truthy (refresh_token (sess (pw p))) = false ->
  in_fetch_obligations inp = true ->
  fst (run_page inp p) = Raised (RuntimeError "No access token") /\
  log (pw (snd (run_page inp p))) = log (pw p).
Proof.
  intros Hq Ha Ht Hr Hf.
  destruct (ensure_token_stale_no_refresh (pw p) Ha Ht Hr) as [w1 [He Hl]].
  pose proof (api_get_falsy_token _ _ _
                (vat_path (in_vrn inp) "/obligations")
                (Some [("from", in_date_from inp); ("to", in_date_to inp)])
                He eq_refl) as Hapi.
  unfold run_page; rewrite run_page_callback_step.
  assert (Hcb : snd (handle_callback (in_qp inp) (pw p)) = pw p)
    by (unfold handle_callback; rewrite Hq; reflexivity).
  rewrite Hcb.
  unfold login_card, pbind, lift, emit, st_stop, pret, get_sess; simpl.
  rewrite Ha, Hf; simpl.
  unfold fetch_obligations, pbind, lift; simpl.
  rewrite Hapi; simpl.
  split; [reflexivity | exact Hl].
Qed.

(** End to end: a callback whose code exchange answers [access_token "A1"],
    [refresh_token "R1"], [expires_in 3600], followed in the same run by
    "Fetch Obligations" less than 3540 s later, sends exactly two requests:
    the code exchange and the obligations GET, which carries
    [Authorization: Bearer A1]; no refresh request is made. *)
Theorem run_page_login_then_obligations (inp : page_input) (p : page)
    (code : string) (r : response) :
  dict_lookup "code" (in_qp inp) = Some code ->
  ok_json (net (pw p) (length (log (pw p))) (code_request code))
    [("access_token", PStr "A1"); ("refresh_token", PStr "R1");
     ("expires_in", PInt 3600)] ->
  clock (pw p) (S (ticks (pw p))) < clock (pw p) (ticks (pw p)) + 3540 ->
  (forall rq, net (pw p) (S (length (log (pw p)))) rq = NetResp r) ->
  in_fetch_obligations inp = true ->
  in_submit inp = false ->
  in_fetch_liabilities inp = false ->
  exists rq,
    log (pw (snd (run_page inp p))) = log (pw p) ++ [code_request code; rq] /\
    rq_method rq = "GET" /\
    rq_url rq = String.append HMRC_BASE (vat_path (in_vrn inp) "/obligations") /\
    rq_body rq = QueryBody [("from", in_date_from inp); ("to", in_date_to inp)] /\
    dict_lookup "Authorization" (rq_headers rq) = Some "Bearer A1".
Proof.
  destruct p as [[[a0 r0 e0] c t n l u nu ui0] o]; cbn [pw log ticks clock net].
  intros Hq [resp [Hnet [Hst Hj]]] Hclock Hnet2 Hf Hs Hl.
  assert (Hs4 : (400 <=? status_code resp) = false) by (apply Z.leb_gt; lia).
  assert (Hfresh : (c (S t) <? c t + 3600 - 60) = true) by (apply Z.ltb_lt; lia).
  assert (HA1 : truthy (PStr "A1") = true) by reflexivity.
  unfold run_page; rewrite run_page_callback_step.
  unfold handle_callback; rewrite Hq.
  unfold exchange_code_for_token; unfold_M; simpl.
  rewrite Hnet; simpl; rewrite Hs4; simpl; rewrite Hj; simpl.
  unfold login_card, pbind, lift, emit, st_stop, pret, get_sess; simpl.
  rewrite Hf, Hs, Hl.
  unfold fetch_obligations, pbind, lift; simpl.
  unfold api_get, ensure_token, fraud_prevention_headers; unfold_M; simpl.
  rewrite Hfresh; simpl; rewrite HA1; simpl.
  rewrite length_app, Nat.add_1_r, Hnet2; simpl.
  unfold ptry, emit; simpl.
  destruct ((400 <=? status_code r) && (status_code r <? 600)); simpl;
    [| destruct (rjson r)]; simpl;
    (eexists; rewrite <- app_assoc; split; [reflexivity | repeat split; reflexivity]).
Qed.

End App.

Arguments Done {A} a.
Arguments Raised {A} e.
Arguments Stopped {A}.

(** ** Witnesses and counterexamples *)

Definition fresh_world : world :=
  sample_world (mkSession (PStr "A") (PStr "R") 2000) (token_answer []).

Definition near_expiry_world : world :=
  sample_world (mkSession (PStr "A") (PStr "R") 1030)
    (token_answer [("access_token", PStr "B"); ("expires_in", PInt 10)]).

Lemma ensure_token_fast_path_witness :
  let (res, w') := ensure_token "id" "secret" fresh_world in
  res = Ok (PStr "A") /\ sess w' = sess fresh_world /\ log w' = log fresh_world.
Proof.
  apply (ensure_token_fast_path "id" "secret" fresh_world);
    [reflexivity | cbn; lia].
Defined.


Lemma ensure_token_refresh_token_kept_witness :
  let w' := snd (ensure_token "id" "secret" near_expiry_world) in
  (dict_lookup "refresh_token" [("access_token", PStr "B"); ("expires_in", PInt 10)]
     = None -> refresh_token (sess w') = PStr "R") /\
  (forall v, dict_lookup "refresh_token"
               [("access_token", PStr "B"); ("expires_in", PInt 10)] = Some v ->
   refresh_token (sess w') = v).
Proof.
  apply (ensure_token_refresh_token_kept "id" "secret" near_expiry_world
           [("access_token", PStr "B"); ("expires_in", PInt 10)] (PStr "B")).
  - reflexivity.
  - reflexivity.
  - eexists; split; [reflexivity | split; [cbn; lia | reflexivity]].
  - reflexivity.
Defined.

Lemma ensure_token_no_token_witness :
  ensure_token "id" "secret" (sample_world initial_session (token_answer []))
  = (Ok PNone, sample_world initial_session (token_answer [])).
Proof.
  apply ensure_token_no_token; reflexivity.
Defined.

Lemma api_request_headers_witness :
  (exists rq, log (snd (api_get "id" "secret" "/x" None fresh_world))
                = log (snd (ensure_token "id" "secret" fresh_world)) ++ [rq] /\
     rq_method rq = "GET" /\
     auth_headers_ok (rq_headers rq) (PStr "A") (fraud_headers_with "0")) /\
  (exists rq, log (snd (api_post "id" "secret" "/x" [] fresh_world))
                = log (snd (ensure_token "id" "secret" fresh_world)) ++ [rq] /\
     rq_method rq = "POST" /\
     auth_headers_ok (rq_headers rq) (PStr "A") (fraud_headers_with "0") /\
     dict_lookup "Content-Type" (rq_headers rq) = Some "application/json").
Proof.
  apply (api_request_headers "id" "secret" fresh_world
           (snd (ensure_token "id" "secret" fresh_world)) (PStr "A")
           (fraud_headers_with "0") "/x" None []);
    reflexivity.
Defined.




Definition login_world : world :=
  sample_world (mkSession (PStr "A") (PStr "R") 2000)
    (token_answer [("access_token", PStr "A1"); ("expires_in", PInt 3600)]).

Lemma callback_installs_refresh_token_witness :
  let w' := snd (handle_callback "id" "secret" [("code", "c")] login_world) in
  In (UISuccess "Signed in with HMRC Sandbox") (ui w') /\
  access_token (sess w') = PStr "A1" /\
  (dict_lookup "refresh_token"
     [("access_token", PStr "A1"); ("expires_in", PInt 3600)] = None ->
   refresh_token (sess w') = PNone) /\
  (forall v, dict_lookup "refresh_token"
               [("access_token", PStr "A1"); ("expires_in", PInt 3600)] = Some v ->
   refresh_token (sess w') = v).
Proof.
  apply (callback_installs_refresh_token "id" "secret" login_world [("code", "c")] "c"
           [("access_token", PStr "A1"); ("expires_in", PInt 3600)] (PStr "A1")).
  - reflexivity.
  - eexists; split; [reflexivity | split; [cbn; lia | reflexivity]].
  - reflexivity.
  - intros v Hv; cbn in Hv; injection Hv as <-; eexists; reflexivity.
Defined.



(** C8 fails: two successive calls differ in [Gov-Client-Device-Id]. *)
Lemma fraud_headers_differ_counterexample :
  fst (fraud_prevention_headers fresh_world) <>
  fst (fraud_prevention_headers (snd (fraud_prevention_headers fresh_world))).
Proof.
  cbn; discriminate.
Qed.

(** The token endpoint rejects the refresh with [401]. *)
Definition refresh_rejected_world : world :=
  sample_world (mkSession PNone (PStr "R") 0)
    (NetResp (mkResponse 401 "invalid_grant" None)).

Lemma ensure_token_failed_refresh_witness :
  exists e w', ensure_token "id" "secret" refresh_rejected_world = (Err e, w') /\
    sess w' = sess refresh_rejected_world /\
    log w' = [refresh_request "id" "secret" (PStr "R")].
Proof.
  apply (ensure_token_failed_refresh "id" "secret" refresh_rejected_world);
    [reflexivity | reflexivity | cbn; left; lia].
Defined.

(** A page input: no query parameters unless [qp] has some, and the three
    action buttons as given. *)
Definition sample_input (qp : dict string) (fetch submit liab : bool) : page_input :=
  mkInput qp "123456789" "2024-01-01" "2024-12-31" fetch " 18A1 "
    (fun _ => PInt 0) true submit liab.

Lemma run_page_login_gate_witness :
  fst (run_page "id" "secret" (sample_input [] true true true)
         (mkPage (sample_world initial_session (token_answer [])) [])) = Stopped /\
  log (pw (snd (run_page "id" "secret" (sample_input [] true true true)
                  (mkPage (sample_world initial_session (token_answer [])) [])))) = [].
Proof.
  destruct (run_page_login_gate "id" "secret" (sample_input [] true true true)
              (mkPage (sample_world initial_session (token_answer [])) []) eq_refl)
    as [H1 [_ [H3 _]]].
  split; [exact H1 | exact H3].
Defined.


(** The access token expires now and there is no refresh token. *)
Definition stale_world : world :=
  sample_world (mkSession (PStr "A") PNone 1000) (token_answer []).

Lemma run_page_stale_token_crash_witness :
  fst (run_page "id" "secret" (sample_input [] true false false) (mkPage stale_world []))
  = Raised (RuntimeError "No access token").
Proof.
  apply (proj1 (run_page_stale_token_crash "id" "secret"
                  (sample_input [] true false false) (mkPage stale_world [])
                  eq_refl eq_refl ltac:(cbn; lia) eq_refl eq_refl)).
Defined.

(** A provider answering the code exchange with [A1]/[R1]/[3600] and every
    later request with an empty JSON object. *)
Definition e2e_world : world :=
  mkWorld initial_session sample_clock 0
    (fun i _ => match i with
                | O => token_answer [("access_token", PStr "A1");
                                     ("refresh_token", PStr "R1");
                                     ("expires_in", PInt 3600)]
                | S _ => NetResp (mkResponse 200 "{}" (Some []))
                end)
    [] sample_uuid 0 [].

Lemma run_page_login_then_obligations_witness :
  exists rq,
    log (pw (snd (run_page "id" "secret" (sample_input [("code", "c")] true false false)
                    (mkPage e2e_world [])))) =
      [code_request "id" "secret" "c"; rq] /\
    dict_lookup "Authorization" (rq_headers rq) = Some "Bearer A1".
Proof.
  destruct (run_page_login_then_obligations "id" "secret"
              (sample_input [("code", "c")] true false false) (mkPage e2e_world [])
              "c" (mkResponse 200 "{}" (Some [])) eq_refl
              ltac:(eexists; split; [reflexivity | split; [cbn; lia | reflexivity]])
              ltac:(cbn; lia) (fun _ => eq_refl) eq_refl eq_refl eq_refl)
    as [rq [H1 [_ [_ [_ H5]]]]].
  exists rq; split; [exact H1 | exact H5].
Defined.
